(** * TenderDashboard: a shallow embedding of
      frontend/src/components/TenderDashboard.jsx

    The component keeps three pieces of hook state ([tenderId], [analysis],
    [loading]), offers one asynchronous operation ([analyzeTender]) and a
    render function.  The embedding has four layers:

    - [JS]: the JavaScript values the component handles (what [JSON.parse]
      can produce, plus [undefined]), property reads, [JSON.stringify],
      [toLocaleString] and thrown errors;
    - [Runtime]: the hook state, the effects on the outside world, and a
      small state/log/exception monad with [try]/[catch]/[finally];
    - [Dom]: the element tree a render returns;
    - [Component]: the operation and the render function, as written.

    What React does with a returned tree (drawing it, refusing a plain
    object as a child) is React's and is not modelled. *)

From Stdlib Require Import String Ascii List Bool Arith ZArith Lia DecimalString.
Import ListNotations.

Set Warnings "-register-all".
Open Scope string_scope.

(** The host of the script: JavaScript numbers are IEEE doubles and their
    printing is the engine's (and, for [toLocaleString], the locale's)
    business.  The component never computes with a number, it only passes
    them on and prints them, so they are kept abstract. *)
Class Host : Type := {
  number : Type;
  Number_toString : number -> string;        (* the JSON text of a number *)
  Number_toLocaleString : number -> string   (* Number.prototype.toLocaleString() *)
}.

Module JS.

(** Thrown values.  The message of a read from [null] or [undefined]
    follows V8; the other engine-raised messages only name the cause, and
    nothing below depends on their wording. *)
Inductive error : Type :=
| Error (message : string)          (* new Error(message) *)
| TypeError (message : string)
| SyntaxError (message : string).

(** Completion of an evaluation: a value, or an abrupt [throw]. *)
Inductive completion (A : Type) : Type :=
| Normal (a : A)
| Throw (e : error).
Arguments Normal {A} a.
Arguments Throw {A} e.

Section Values.
Context {H : Host}.

(** Strings are sequences of bytes holding well-formed UTF-8 text.  An
    object is the ordered list of its own properties. *)
Inductive value : Type :=
| VUndefined
| VNull
| VBool (b : bool)
| VNum (n : number)
| VStr (s : string)
| VArr (items : list value)
| VObj (props : list (string * value)).

Definition nullish (v : value) : bool :=
  match v with
  | VUndefined | VNull => true
  | _ => false
  end.

Definition typeName (v : value) : string :=
  match v with
  | VNull => "null"
  | _ => "undefined"
  end.

Fixpoint own_property (props : list (string * value)) (k : string) : option value :=
  match props with
  | [] => None
  | (k', v) :: rest => if String.eqb k' k then Some v else own_property rest k
  end.

(** [v.k] for a property name [k] that no built-in prototype defines (all
    the names the component reads: title, price_range, min, max, confidence,
    requirements, compliance).  Reading from [undefined] or [null] throws;
    primitives and arrays have no such property. *)
Definition get (v : value) (k : string) : completion value :=
  match v with
  | VUndefined | VNull =>
      Throw (TypeError ("Cannot read properties of " ++ typeName v
                        ++ " (reading '" ++ k ++ "')"))
  | VObj props =>
      Normal (match own_property props k with
              | Some x => x
              | None => VUndefined
              end)
  | _ => Normal VUndefined
  end.

(** ** JSON.stringify *)

Definition dquote : ascii := "034"%char.
Definition backslash : ascii := "092"%char.

Definition hexDigit (n : nat) : ascii :=
  match n with
  | 0 => "0" | 1 => "1" | 2 => "2" | 3 => "3" | 4 => "4" | 5 => "5"
  | 6 => "6" | 7 => "7" | 8 => "8" | 9 => "9" | 10 => "a" | 11 => "b"
  | 12 => "c" | 13 => "d" | 14 => "e" | _ => "f"
  end%char.

Definition escape2 (c : ascii) : string :=
  String backslash (String c EmptyString).

(** One character of QuoteJSONString.  Bytes from 128 on, the parts of a
    UTF-8 sequence, pass unchanged. *)
Definition quoteChar (c : ascii) : string :=
  let n := nat_of_ascii c in
  if Nat.eqb n 8 then escape2 "b"
  else if Nat.eqb n 9 then escape2 "t"
  else if Nat.eqb n 10 then escape2 "n"
  else if Nat.eqb n 12 then escape2 "f"
  else if Nat.eqb n 13 then escape2 "r"
  else if Nat.eqb n 34 then escape2 dquote
  else if Nat.eqb n 92 then escape2 backslash
  else if Nat.ltb n 32 then
    String backslash
      (String "u" (String "0" (String "0"
         (String (hexDigit (n / 16)) (String (hexDigit (n mod 16)) EmptyString)))))
  else String c EmptyString.

Fixpoint quoteChars (s : string) : string :=
  match s with
  | EmptyString => EmptyString
  | String c rest => quoteChar c ++ quoteChars rest
  end.

Definition QuoteJSONString (s : string) : string :=
  String dquote (quoteChars s ++ String dquote EmptyString).

(** [JSON.stringify(v)] without replacer or indentation; [None] is the
    result [undefined].  A property whose value is [undefined] is left out
    of an object and printed as null in an array. *)
Fixpoint JSON_stringify (v : value) : option string :=
  match v with
  | VUndefined => None
  | VNull => Some "null"
  | VBool true => Some "true"
  | VBool false => Some "false"
  | VNum n => Some (Number_toString n)
  | VStr s => Some (QuoteJSONString s)
  | VArr items =>
      Some ("[" ++ String.concat ","
                     (map (fun x => match JSON_stringify x with
                                    | Some s => s
                                    | None => "null"
                                    end) items) ++ "]")
  | VObj props =>
      Some ("{" ++ String.concat ","
                     (flat_map (fun kv => match JSON_stringify (snd kv) with
                                          | Some s => [QuoteJSONString (fst kv) ++ ":" ++ s]
                                          | None => []
                                          end) props) ++ "}")
  end.

(** ** toLocaleString

    [v.toLocaleString()] for a value that came out of [JSON.parse] (or is
    [undefined]).  A number prints through the host; a string is returned as
    it is; a boolean inherits [Object.prototype.toLocaleString], which calls
    its [toString]; an array joins the locale strings of its elements with
    commas, the empty string standing for [null] and [undefined]; an object
    reaches
    [Object.prototype.toLocaleString] unless an own property shadows the
    method or the [toString] it calls, and such a property, coming from
    JSON, is never callable. *)
Fixpoint toLocaleString (v : value) : completion string :=
  match v with
  | VUndefined | VNull =>
      Throw (TypeError ("Cannot read properties of " ++ typeName v
                        ++ " (reading 'toLocaleString')"))
  | VBool true => Normal "true"
  | VBool false => Normal "false"
  | VNum n => Normal (Number_toLocaleString n)
  | VStr s => Normal s
  | VArr items =>
      (fix join (l : list value) (first : bool) : completion string :=
         match l with
         | [] => Normal ""
         | x :: rest =>
             match (if nullish x then Normal "" else toLocaleString x) with
             | Throw e => Throw e
             | Normal s =>
                 match join rest false with
                 | Throw e => Throw e
                 | Normal t => Normal ((if first then "" else ",") ++ s ++ t)
                 end
             end
         end) items true
  | VObj props =>
      match own_property props "toLocaleString", own_property props "toString" with
      | Some _, _ => Throw (TypeError "toLocaleString is not a function")
      | None, Some _ => Throw (TypeError "this.toString is not a function")
      | None, None => Normal "[object Object]"
      end
  end.

End Values.

End JS.

Import JS.

(** * The component's state, its effects and the monad they live in *)
Module Runtime.

Section Runtime.
Context {H : Host}.

(** The object [setAnalysis] stores.  Nothing checks the response, so each
    field holds whatever the property read produced. *)
Record PriceRange : Type := { min : value; max : value }.

Record AnalysisResult : Type := {
  title : value;
  priceRange : PriceRange;
  confidence : value;
  requirements : value;
  compliance : value
}.

(** The three [useState] cells. *)
Record state : Type := {
  tenderId : string;
  analysis : option AnalysisResult;   (* null, or the stored object *)
  loading : bool
}.

(** The second argument of [fetch]; [body] is [None] when [JSON.stringify]
    answers [undefined]. *)
Record RequestInit : Type := {
  method : string;
  headers : list (string * string);
  body : option string
}.

(** What [fetch] resolves to, as far as the component looks at it:
    [response.ok], and how [response.json()] will settle. *)
Record Response : Type := {
  ok : bool;
  json : completion value
}.

(** What the component does to the outside world, in order. *)
Inductive effect : Type :=
| Fetch (url : string) (init : RequestInit)
| ResponseJson                                (* response.json() *)
| ConsoleError (label : string) (err : error) (* console.error(label, err) *)
| Alert (message : string).                   (* window.alert(message) *)

(** The network decides how a [fetch] settles; it may take into account
    everything that happened before. *)
Definition network : Type :=
  list effect -> string -> RequestInit -> completion Response.

(** Computations: read the network, thread the hook state and the log of
    effects, and complete normally or abruptly. *)
Definition M (A : Type) : Type :=
  network -> state -> list effect -> completion A * state * list effect.

Definition ret {A} (a : A) : M A :=
  fun _ s l => (Normal a, s, l).

Definition bind {A B} (m : M A) (k : A -> M B) : M B :=
  fun net s l =>
    match m net s l with
    | (Normal a, s', l') => k a net s' l'
    | (Throw e, s', l') => (Throw e, s', l')
    end.

Definition throw {A} (e : error) : M A :=
  fun _ s l => (Throw e, s, l).

Definition lift {A} (c : completion A) : M A :=
  fun _ s l => (c, s, l).

(** [try { body } catch (e) { handler e } finally { finalizer }]: the
    handler runs when the body throws, the finalizer runs in every case, and
    a throwing finalizer replaces the completion. *)
Definition try_catch_finally {A} (body : M A) (handler : error -> M A)
    (finalizer : M unit) : M A :=
  fun net s l =>
    let '(r, s1, l1) :=
      match body net s l with
      | (Normal a, s', l') => (Normal a, s', l')
      | (Throw e, s', l') => handler e net s' l'
      end in
    match finalizer net s1 l1 with
    | (Normal _, s2, l2) => (r, s2, l2)
    | (Throw e, s2, l2) => (Throw e, s2, l2)
    end.

Definition useState : M state :=
  fun _ s l => (Normal s, s, l).

Definition setTenderId (v : string) : M unit :=
  fun _ s l =>
    (Normal tt, {| tenderId := v; analysis := analysis s; loading := loading s |}, l).

Definition setAnalysis (a : AnalysisResult) : M unit :=
  fun _ s l =>
    (Normal tt, {| tenderId := tenderId s; analysis := Some a; loading := loading s |}, l).

Definition setLoading (b : bool) : M unit :=
  fun _ s l =>
    (Normal tt, {| tenderId := tenderId s; analysis := analysis s; loading := b |}, l).

Definition perform (e : effect) : M unit :=
  fun _ s l => (Normal tt, s, (l ++ [e])%list).

(** [await fetch(url, init)] *)
Definition fetch (url : string) (init : RequestInit) : M Response :=
  fun net s l => (net l url init, s, (l ++ [Fetch url init])%list).

(** [await response.json()] *)
Definition response_json (r : Response) : M value :=
  fun _ s l => (json r, s, (l ++ [ResponseJson])%list).

Definition console_error (label : string) (e : error) : M unit :=
  perform (ConsoleError label e).

Definition alert (message : string) : M unit :=
  perform (Alert message).

(** Running a computation from a state with an empty log. *)
Definition run {A} (m : M A) (net : network) (s : state)
  : completion A * state * list effect :=
  m net s [].

Definition result_of {A} (r : completion A * state * list effect) : completion A :=
  fst (fst r).
Definition state_of {A} (r : completion A * state * list effect) : state :=
  snd (fst r).
Definition log_of {A} (r : completion A * state * list effect) : list effect :=
  snd r.

End Runtime.

Module Notations.
Notation "x <- c ;; k" := (bind c (fun x => k))
  (at level 61, c at next level, right associativity).
Notation "c ;; k" := (bind c (fun _ => k))
  (at level 61, right associativity).
End Notations.

End Runtime.

Import Runtime Runtime.Notations.

(** * The element tree a render returns *)
Module Dom.

Section Dom.
Context {H : Host}.

Inductive attr : Type :=
| AStr (s : string)
| ABool (b : bool)
| ANum (n : nat)
| AOnClick (handler : M unit)
| AOnChange (handler : string -> M unit).   (* receives e.target.value *)

(** [Text] is literal JSX text, [Expr] a braced expression that evaluated to
    a plain value, [Items] a braced expression that evaluated to an array of
    elements.  Component elements ([<Search/>], [<CheckCircle/>], ...) are
    kept as elements tagged with the component's name. *)
Inductive node : Type :=
| Text (s : string)
| Expr (v : value)
| Items (items : list node)
| Element (tag : string) (props : list (string * attr)) (children : list node).

(** React draws nothing for [null], [undefined], [true], [false] and the
    empty string. *)
Definition renders_nothing (n : node) : bool :=
  match n with
  | Expr VUndefined | Expr VNull | Expr (VBool _) => true
  | Expr (VStr EmptyString) => true
  | _ => false
  end.

Definition tag_of (n : node) : option string :=
  match n with
  | Element tag _ _ => Some tag
  | _ => None
  end.

Definition children_of (n : node) : list node :=
  match n with
  | Element _ _ children => children
  | Items items => items
  | _ => []
  end.

Fixpoint lookup_attr (props : list (string * attr)) (k : string) : option attr :=
  match props with
  | [] => None
  | (k', a) :: rest => if String.eqb k' k then Some a else lookup_attr rest k
  end.

Definition attr_of (n : node) (k : string) : option attr :=
  match n with
  | Element _ props _ => lookup_attr props k
  | _ => None
  end.

(** All elements with the given tag, in document order. *)
Fixpoint elements_by_tag (tag : string) (n : node) : list node :=
  match n with
  | Text _ | Expr _ => []
  | Items items => flat_map (elements_by_tag tag) items
  | Element t _ children =>
      (if String.eqb t tag then [n] else [])
        ++ flat_map (elements_by_tag tag) children
  end%list.

End Dom.

End Dom.

Import Dom.

(** * The component *)
Module Component.

Section Component.
Context {H : Host}.

(** [!s] for a string: true exactly for the empty string. *)
Definition not_string (s : string) : bool :=
  match s with
  | EmptyString => true
  | String _ _ => false
  end.

(** [Array.prototype.map] with a callback of two arguments. *)
Fixpoint map_index {A B} (f : A -> nat -> B) (l : list A) (index : nat) : list B :=
  match l with
  | [] => []
  | x :: rest => f x index :: map_index f rest (S index)
  end.

(** [v.map(f)] for a value out of [JSON.parse]: only an array has the
    method. *)
Definition call_map {B} (v : value) (f : value -> nat -> B) : completion (list B) :=
  match v with
  | VArr items => Normal (map_index f items 0)
  | VUndefined | VNull =>
      Throw (TypeError ("Cannot read properties of " ++ typeName v
                        ++ " (reading 'map')"))
  | _ => Throw (TypeError "analysis.requirements.map is not a function")
  end.

Definition endpoint : string := "http://localhost:8000/api/analyze-tender".

Definition requestBody (tenderId : string) : value :=
  VObj [("tender_id", VStr tenderId); ("tender_url", VNull)].

Definition requestInit (tenderId : string) : RequestInit :=
  {| method := "POST";
     headers := [("Content-Type", "application/json")];
     body := JSON_stringify (requestBody tenderId) |}.

(** The object literal handed to [setAnalysis]; its property reads happen
    in source order and the first one that throws ends the evaluation. *)
Definition transform (data : value) : M AnalysisResult :=
  data_title <- lift (get data "title") ;;
  price_range_1 <- lift (get data "price_range") ;;
  price_min <- lift (get price_range_1 "min") ;;
  price_range_2 <- lift (get data "price_range") ;;
  price_max <- lift (get price_range_2 "max") ;;
  data_confidence <- lift (get data "confidence") ;;
  data_requirements <- lift (get data "requirements") ;;
  data_compliance <- lift (get data "compliance") ;;
  ret {| title := data_title;
         priceRange := {| min := price_min; max := price_max |};
         confidence := data_confidence;
         requirements := data_requirements;
         compliance := data_compliance |}.

(** The closure [analyzeTender] of a render, over that render's
    [tenderId]. *)
Definition analyzeTender (tenderId : string) : M unit :=
  setLoading true ;;
  try_catch_finally
    (response <- fetch endpoint (requestInit tenderId) ;;
     (if negb (ok response) then throw (Error "Analysis failed") else ret tt) ;;
     data <- response_json response ;;
     result <- transform data ;;
     setAnalysis result)
    (fun error =>
       console_error "Error analyzing tender:" error ;;
       alert "Failed to analyze tender. Please try again.")
    (setLoading false).

Definition className (c : string) : string * attr := ("className", AStr c).

(** The white card holding the text field and the button. *)
Definition triggerSection (tenderId : string) (loading : bool)
    (analyzeTender : M unit) : node :=
  Element "div" [className "bg-white rounded-lg shadow-md p-6 mb-6"]
    [Element "div" [className "flex gap-4 mb-4"]
       [Element "div" [className "flex-1"]
          [Element "input"
             [("type", AStr "text");
              ("placeholder", AStr "Enter Tender ID or URL");
              ("value", AStr tenderId);
              ("onChange", AOnChange (fun value => setTenderId value));
              className "w-full px-4 py-2 border border-gray-300 rounded-lg focus:ring-2 focus:ring-blue-500 focus:border-transparent"]
             []];
        Element "button"
          [("onClick", AOnClick analyzeTender);
           ("disabled", ABool (loading || not_string tenderId));
           className "px-6 py-2 bg-blue-600 text-white rounded-lg hover:bg-blue-700 disabled:opacity-50 flex items-center gap-2"]
          [Element "Search" [("size", ANum 20)] [];
           Expr (VStr (if loading then "Analyzing..." else "Analyze"))]]].

Definition pricePanel (minText maxText : string) (confidence : value) : node :=
  Element "div" [className "bg-white rounded-lg shadow-md p-6"]
    [Element "h2" [className "text-xl font-semibold mb-4 flex items-center gap-2"]
       [Element "DollarSign" [className "text-green-600"] [];
        Text "Optimal Bid Range"];
     Element "div" [className "text-3xl font-bold text-green-600 mb-2"]
       [Text "€"; Expr (VStr minText); Text " - €"; Expr (VStr maxText)];
     Element "div" [className "text-sm text-gray-600"]
       [Text "Confidence: "; Expr confidence; Text "%"]].

Definition compliancePanel (compliance : value) : node :=
  Element "div" [className "bg-white rounded-lg shadow-md p-6"]
    [Element "h2" [className "text-xl font-semibold mb-4 flex items-center gap-2"]
       [Element "CheckCircle" [className "text-blue-600"] [];
        Text "Compliance Score"];
     Element "div" [className "text-3xl font-bold text-blue-600 mb-2"]
       [Expr compliance; Text "%"];
     Element "div" [className "text-sm text-gray-600"]
       [Text "Based on requirements analysis"]].

(** The callback of [requirements.map]. *)
Definition requirementItem (req : value) (index : nat) : node :=
  Element "li" [("key", ANum index); className "flex items-start gap-2"]
    [Element "CheckCircle" [("size", ANum 16); className "text-green-500 mt-1"] [];
     Element "span" [] [Expr req]].

Definition requirementsPanel (items : list node) : node :=
  Element "div" [className "bg-white rounded-lg shadow-md p-6 md:col-span-2"]
    [Element "h2" [className "text-xl font-semibold mb-4 flex items-center gap-2"]
       [Element "FileText" [className "text-purple-600"] [];
        Text "Key Requirements"];
     Element "ul" [className "space-y-2"] [Items items]].

(** The right operand of [analysis && (...)], for a stored object. *)
Definition resultPanels (analysis : AnalysisResult) : M node :=
  minText <- lift (toLocaleString (min (priceRange analysis))) ;;
  maxText <- lift (toLocaleString (max (priceRange analysis))) ;;
  items <- lift (call_map (requirements analysis) requirementItem) ;;
  ret (Element "div" [className "grid grid-cols-1 md:grid-cols-2 gap-6"]
         [pricePanel minText maxText (confidence analysis);
          compliancePanel (compliance analysis);
          requirementsPanel items]).

Definition page (trigger results : node) : node :=
  Element "div" [className "min-h-screen bg-gray-50 p-6"]
    [Element "div" [className "max-w-6xl mx-auto"]
       [Element "h1" [className "text-3xl font-bold text-gray-900 mb-8"]
          [Text "Toptimize"];
        trigger;
        results]].

(** The function component: one render. *)
Definition TenderDashboard : M node :=
  s <- useState ;;
  let analyzeTender := analyzeTender (tenderId s) in
  results <- match analysis s with
             | None => ret (Expr VNull)
             | Some a => resultPanels a
             end ;;
  ret (page (triggerSection (tenderId s) (loading s) analyzeTender) results).

(** The arguments of the three [useState] calls. *)
Definition initial_state : state :=
  {| tenderId := ""; analysis := None; loading := false |}.

End Component.

End Component.

Import Component.

(** * A concrete host: integers printed in decimal, grouped by thousands

    Used to run the component on concrete responses. *)
Module IntegerHost.

Definition decimal (z : Z) : string :=
  DecimalString.NilZero.string_of_int (Z.to_int z).

(** Walks the digits from the least significant one; [k] digits may still
    follow before a separator is due. *)
Fixpoint separate (digits : list ascii) (k : nat) : list ascii :=
  match digits with
  | [] => []
  | d :: rest =>
      match k with
      | 0 => ","%char :: d :: separate rest 2
      | S k' => d :: separate rest k'
      end
  end.

Definition grouped (digits : string) : string :=
  string_of_list_ascii (rev (separate (rev (list_ascii_of_string digits)) 3)).

(** Meant for the integers a double holds exactly (up to 2^53); beyond
    them an engine prints the rounded double. *)
Definition locale (z : Z) : string :=
  match z with
  | Zneg p => "-" ++ grouped (decimal (Zpos p))
  | _ => grouped (decimal z)
  end.

Definition host : Host :=
  {| number := Z; Number_toString := decimal; Number_toLocaleString := locale |}.

Definition num (z : Z) : @value host := @VNum host z.

(** The response of the spec's scenario. *)
Definition roadMaintenance : @value host :=
  VObj [("title", VStr "Road Maintenance");
        ("price_range", VObj [("min", num 50000); ("max", num 75000)]);
        ("confidence", num 82);
        ("requirements", VArr [VStr "ISO 9001"]);
        ("compliance", num 91)].

(** The same response without its title, without its price range, and with
    the lower price sent as a string. *)
Definition missingTitle : @value host :=
  VObj [("price_range", VObj [("min", num 50000); ("max", num 75000)]);
        ("confidence", num 82);
        ("requirements", VArr [VStr "ISO 9001"]);
        ("compliance", num 91)].

Definition missingPriceRange : @value host :=
  VObj [("title", VStr "Road Maintenance");
        ("confidence", num 82);
        ("requirements", VArr [VStr "ISO 9001"]);
        ("compliance", num 91)].

Definition mistypedMin : @value host :=
  VObj [("title", VStr "Road Maintenance");
        ("price_range", VObj [("min", VStr "50000"); ("max", num 75000)]);
        ("confidence", num 82);
        ("requirements", VArr [VStr "ISO 9001"]);
        ("compliance", num 91)].

Definition missingRequirements : @value host :=
  VObj [("title", VStr "Road Maintenance");
        ("price_range", VObj [("min", num 50000); ("max", num 75000)]);
        ("confidence", num 82);
        ("compliance", num 91)].

(** The scenario's response with the two requirements of the spec's
    example on order. *)
Definition twoRequirements : @value host :=
  VObj [("title", VStr "Road Maintenance");
        ("price_range", VObj [("min", num 50000); ("max", num 75000)]);
        ("confidence", num 82);
        ("requirements", VArr [VStr "ISO 9001 certification";
                               VStr "Min. 3 years experience"]);
        ("compliance", num 91)].

(** A network on which every request settles the same way. *)
Definition always (outcome : completion (@Response host)) : @network host :=
  fun _ _ _ => outcome.

Definition succeed (data : @value host) : @network host :=
  always (Normal {| ok := true; json := Normal data |}).

Definition status500 (data : @value host) : @network host :=
  always (Normal {| ok := false; json := Normal data |}).

Definition offline : @network host :=
  always (Throw (TypeError "Failed to fetch")).

Definition garbled : @network host :=
  always (Normal {| ok := true;
                    json := Throw (SyntaxError "Unexpected end of JSON input") |}).

Definition typed (tenderId : string) : @state host :=
  {| tenderId := tenderId; analysis := None; loading := false |}.

End IntegerHost.

(** * What the properties are stated with *)

Section Observations.
Context {H : Host}.

Definition consoleLabel : string := "Error analyzing tender:".
Definition alertMessage : string := "Failed to analyze tender. Please try again.".

(** The state a finished operation leaves when it stored nothing. *)
Definition idle (s : state) : state :=
  {| tenderId := tenderId s; analysis := analysis s; loading := false |}.

(** The stored object when every read goes through. *)
Definition mapped (data : value) (price_range : value) : AnalysisResult :=
  let read v k := match get v k with Normal x => x | Throw _ => VUndefined end in
  {| title := read data "title";
     priceRange := {| min := read price_range "min"; max := read price_range "max" |};
     confidence := read data "confidence";
     requirements := read data "requirements";
     compliance := read data "compliance" |}.

(** The ways the spec lets a request fail, each with the error that
    reaches the [catch] block: the request is rejected, the response's
    status is not a success, or the body does not parse. *)
Inductive failing : completion Response -> error -> Prop :=
| network_failure (e : error) :
    failing (Throw e) e
| non_success_status (response : Response) :
    ok response = false ->
    failing (Normal response) (Error "Analysis failed")
| parse_failure (response : Response) (e : error) :
    ok response = true ->
    json response = Throw e ->
    failing (Normal response) e.

(** The result panels as a value: what [resultPanels] completes with. *)
Definition panels (a : AnalysisResult) : completion node :=
  match toLocaleString (min (priceRange a)) with
  | Throw e => Throw e
  | Normal minText =>
      match toLocaleString (max (priceRange a)) with
      | Throw e => Throw e
      | Normal maxText =>
          match call_map (requirements a) requirementItem with
          | Throw e => Throw e
          | Normal items =>
              Normal (Element "div" [className "grid grid-cols-1 md:grid-cols-2 gap-6"]
                        [pricePanel minText maxText (confidence a);
                         compliancePanel (compliance a);
                         requirementsPanel items])
          end
      end
  end.

(** What stands in the place of [analysis && (...)]. *)
Definition results (a : option AnalysisResult) : completion node :=
  match a with
  | None => Normal (Expr VNull)
  | Some a => panels a
  end.

Definition trigger (s : state) : node :=
  triggerSection (tenderId s) (loading s) (analyzeTender (tenderId s)).

(** The [disabled] attribute of the one button of a tree. *)
Definition trigger_disabled (tree : node) : option bool :=
  match elements_by_tag "button" tree with
  | [button] =>
      match attr_of button "disabled" with
      | Some (ABool b) => Some b
      | _ => None
      end
  | _ => None
  end.

(** The children of a node that React draws. *)
Definition drawn (n : node) : list node :=
  filter (fun child => negb (renders_nothing child)) (children_of n).

(** The inner container of the page: heading, trigger section, results. *)
Definition container (tree : node) : option node :=
  match tree with
  | Element _ _ [inner] => Some inner
  | _ => None
  end.

(** The requests a log records, in order. *)
Definition fetches (l : list effect) : list (string * RequestInit) :=
  flat_map (fun e => match e with
                     | Fetch url init => [(url, init)]
                     | _ => []
                     end) l.


Definition is_array (v : value) : bool :=
  match v with
  | VArr _ => true
  | _ => false
  end.

End Observations.

(** * Driving the rendered tree

    The handlers an event reaches are the ones the last render put in the
    tree. *)

Section Harness.
Context {H : Host}.

Definition the_element (tag : string) (tree : node) : option node :=
  match elements_by_tag tag tree with
  | [element] => Some element
  | _ => None
  end.

(** The [value] attribute of the one text field of a tree. *)
Definition input_value (tree : node) : option string :=
  match the_element "input" tree with
  | Some input =>
      match attr_of input "value" with
      | Some (AStr v) => Some v
      | _ => None
      end
  | None => None
  end.

Definition input_onChange (tree : node) : option (string -> M unit) :=
  match the_element "input" tree with
  | Some input =>
      match attr_of input "onChange" with
      | Some (AOnChange handler) => Some handler
      | _ => None
      end
  | None => None
  end.

Definition button_onClick (tree : node) : option (M unit) :=
  match the_element "button" tree with
  | Some button =>
      match attr_of button "onClick" with
      | Some (AOnClick handler) => Some handler
      | _ => None
      end
  | None => None
  end.

(** What the button shows after its icon. *)
Definition button_label (tree : node) : option node :=
  match the_element "button" tree with
  | Some button => nth_error (children_of button) 1
  | None => None
  end.

(** A change event on the text field, carrying the new text. *)
Definition type_text (tree : node) (text : string) : M unit :=
  match input_onChange tree with
  | Some handler => handler text
  | None => ret tt
  end.

(** A click on the button; a disabled button receives no click. *)
Definition click (tree : node) : M unit :=
  match button_onClick tree, trigger_disabled tree with
  | Some handler, Some false => handler
  | _, _ => ret tt
  end.

(** The values for which [toLocaleString] completes: not [null] or
    [undefined]; in an array, every element that is neither; in an object,
    no own property in the way of the inherited method. *)
Fixpoint printable (v : value) : bool :=
  match v with
  | VUndefined | VNull => false
  | VBool _ | VNum _ | VStr _ => true
  | VArr items => forallb (fun x => nullish x || printable x) items
  | VObj props =>
      match own_property props "toLocaleString", own_property props "toString" with
      | None, None => true
      | _, _ => false
      end
  end.

(** The loop of [Array.prototype.toLocaleString], as [toLocaleString] runs
    it on the elements of an array. *)
Fixpoint joinLocale (l : list value) (first : bool) : completion string :=
  match l with
  | [] => Normal ""
  | x :: rest =>
      match (if nullish x then Normal "" else toLocaleString x) with
      | Throw e => Throw e
      | Normal s =>
          match joinLocale rest false with
          | Throw e => Throw e
          | Normal t => Normal ((if first then "" else ",") ++ s ++ t)
          end
      end
  end.

Definition prints (v : value) : Prop :=
  exists str, toLocaleString v = Normal str.

(** The texts and braced values of a tree, in document order. *)
Fixpoint leaves (n : node) : list node :=
  match n with
  | Text _ | Expr _ => [n]
  | Items items => flat_map leaves items
  | Element _ _ children => flat_map leaves children
  end.

(** ** Reading a quoted string back

    The inverse of [QuoteJSONString] on its image, used to show that
    quoting loses nothing. *)

(** The value of a lower-case hexadecimal digit, from its code. *)
Definition hexValue (c : ascii) : option nat :=
  let n := nat_of_ascii c in
  if Nat.leb 48 n && Nat.leb n 57 then Some (n - 48)
  else if Nat.leb 97 n && Nat.leb n 102 then Some (n - 87)
  else None.

Definition unescape (c : ascii) : option ascii :=
  if Ascii.eqb c "b" then Some "008"%char
  else if Ascii.eqb c "t" then Some "009"%char
  else if Ascii.eqb c "n" then Some "010"%char
  else if Ascii.eqb c "f" then Some "012"%char
  else if Ascii.eqb c "r" then Some "013"%char
  else if Ascii.eqb c dquote then Some dquote
  else if Ascii.eqb c backslash then Some backslash
  else None.

Definition prepend (c : ascii) (r : option (string * string)) : option (string * string) :=
  match r with
  | Some (text, rest) => Some (String c text, rest)
  | None => None
  end.


(** Reads a JSON string literal after its opening quote, up to the closing
    quote: the text read and what follows it.  A raw control character, an
    unknown escape or an unfinished literal is refused; of the [u] escapes
    only those of a single byte (two leading zeros, lower-case digits) are
    read. *)
Fixpoint readChars (s : string) : option (string * string) :=
  match s with
  | EmptyString => None
  | String c rest =>
      if Ascii.eqb c dquote then Some (EmptyString, rest)
      else if Ascii.eqb c backslash then
        match rest with
        | String x rest1 =>
            if Ascii.eqb x "u" then
              match rest1 with
              | String z1 (String z2 (String h1 (String h2 rest2))) =>
                  if Ascii.eqb z1 "0" && Ascii.eqb z2 "0" then
                    match hexValue h1, hexValue h2 with
                    | Some v1, Some v2 =>
                        prepend (ascii_of_nat (16 * v1 + v2)) (readChars rest2)
                    | _, _ => None
                    end
                  else None
              | _ => None
              end
            else
              match unescape x with
              | Some ch => prepend ch (readChars rest1)
              | None => None
              end
        | EmptyString => None
        end
      else if Nat.ltb (nat_of_ascii c) 32 then None
      else prepend c (readChars rest)
  end.

End Harness.

(** The state once the scenario's response has been stored. *)
Definition analysed : @state IntegerHost.host :=
  state_of (run (analyzeTender "T-1001")
              (IntegerHost.succeed IntegerHost.roadMaintenance)
              (IntegerHost.typed "T-1001")).

(** The state once the response with two requirements has been stored. *)
Definition analysedTwo : @state IntegerHost.host :=
  state_of (run (analyzeTender "T-1001")
              (IntegerHost.succeed IntegerHost.twoRequirements)
              (IntegerHost.typed "T-1001")).

(** * Properties *)

Example locale_50000 : IntegerHost.locale 50000 = "50,000".
Proof. reflexivity. Qed.

Example locale_negative : IntegerHost.locale (-1234567) = "-1,234,567".
Proof. reflexivity. Qed.

Example quote_escapes :
  QuoteJSONString (String "009" (String dquote "T-1"))
  = String dquote (String backslash (String "t"
      (String backslash (String dquote ("T-1" ++ String dquote ""))))).
Proof. reflexivity. Qed.

Section Operation.
Context {H : Host}.

(** ** try / catch / finally *)

Lemma finally_runs_last {A} (body : M A) (handler : error -> M A) (b : bool)
    (net : network) (s : state) (l : list effect) :
  loading (state_of (try_catch_finally body handler (setLoading b) net s l)) = b.
Proof.
  unfold try_catch_finally.
  destruct (body net s l) as [[[a | e] s1] l1].
  - reflexivity.
  - destruct (handler e net s1 l1) as [[r s2] l2]. reflexivity.
Qed.

Lemma bind_setLoading {A} (b : bool) (k : unit -> M A) net s l :
  bind (setLoading b) k net s l
  = k tt net {| tenderId := tenderId s; analysis := analysis s; loading := b |} l.
Proof. reflexivity. Qed.

(** The handler of the [catch] block never throws. *)
Lemma handler_completes (e : error) net s l :
  (console_error consoleLabel e ;; alert alertMessage) net s l
  = (Normal tt, s, ((l ++ [ConsoleError consoleLabel e]) ++ [Alert alertMessage])%list).
Proof. reflexivity. Qed.

(** ** The object literal *)

Lemma transform_pure (data : value) net s l :
  exists r, transform data net s l = (r, s, l).
Proof.
  unfold transform, bind, lift, ret.
  destruct (get data "title"); [| eexists; reflexivity ].
  destruct (get data "price_range") as [pr |]; [| eexists; reflexivity ].
  destruct (get pr "min"); [| eexists; reflexivity ].
  destruct (get pr "max"); [| eexists; reflexivity ].
  destruct (get data "confidence"); [| eexists; reflexivity ].
  destruct (get data "requirements"); [| eexists; reflexivity ].
  destruct (get data "compliance"); eexists; reflexivity.
Qed.

Lemma get_total (v : value) (k : string) :
  nullish v = false -> exists x, get v k = Normal x.
Proof. destruct v; simpl; intros E; try discriminate; eexists; reflexivity. Qed.

Lemma get_nullish (v : value) (k : string) :
  nullish v = true ->
  get v k = Throw (TypeError ("Cannot read properties of " ++ typeName v
                              ++ " (reading '" ++ k ++ "')")).
Proof. destruct v; simpl; intros E; try discriminate; reflexivity. Qed.

Lemma transform_ok (data price_range : value) net s l :
  get data "price_range" = Normal price_range ->
  nullish price_range = false ->
  transform data net s l = (Normal (mapped data price_range), s, l).
Proof.
  intros Hpr Hn.
  assert (Hd : nullish data = false) by (destruct data; simpl in *; congruence).
  unfold transform, mapped, bind, lift, ret. rewrite Hpr.
  destruct (get_total data "title" Hd) as [t ->].
  destruct (get_total price_range "min" Hn) as [mn ->].
  destruct (get_total price_range "max" Hn) as [mx ->].
  destruct (get_total data "confidence" Hd) as [c ->].
  destruct (get_total data "requirements" Hd) as [r ->].
  destruct (get_total data "compliance" Hd) as [c' ->].
  reflexivity.
Qed.

(** ** The operation, outcome by outcome *)

Lemma analyzeTender_rejected tenderId net s l e :
  net l endpoint (requestInit tenderId) = Throw e ->
  analyzeTender tenderId net s l
  = (Normal tt, idle s,
     l ++ [Fetch endpoint (requestInit tenderId);
           ConsoleError consoleLabel e; Alert alertMessage])%list.
Proof.
  intros Hnet. unfold analyzeTender. rewrite bind_setLoading.
  unfold try_catch_finally, bind, fetch. rewrite Hnet.
  cbn. rewrite <- !app_assoc. reflexivity.
Qed.

Lemma analyzeTender_not_ok tenderId net s l response :
  net l endpoint (requestInit tenderId) = Normal response ->
  ok response = false ->
  analyzeTender tenderId net s l
  = (Normal tt, idle s,
     l ++ [Fetch endpoint (requestInit tenderId);
           ConsoleError consoleLabel (Error "Analysis failed");
           Alert alertMessage])%list.
Proof.
  intros Hnet Hok. unfold analyzeTender. rewrite bind_setLoading.
  unfold try_catch_finally, bind, fetch. rewrite Hnet, Hok.
  cbn. rewrite <- !app_assoc. reflexivity.
Qed.

Lemma analyzeTender_unparsed tenderId net s l response e :
  net l endpoint (requestInit tenderId) = Normal response ->
  ok response = true ->
  json response = Throw e ->
  analyzeTender tenderId net s l
  = (Normal tt, idle s,
     l ++ [Fetch endpoint (requestInit tenderId); ResponseJson;
           ConsoleError consoleLabel e; Alert alertMessage])%list.
Proof.
  intros Hnet Hok Hjson. unfold analyzeTender. rewrite bind_setLoading.
  unfold try_catch_finally, bind, fetch, response_json. rewrite Hnet, Hok.
  cbn. rewrite Hjson. cbn. rewrite <- !app_assoc. reflexivity.
Qed.

Lemma analyzeTender_parsed tenderId net s l response data :
  net l endpoint (requestInit tenderId) = Normal response ->
  ok response = true ->
  json response = Normal data ->
  analyzeTender tenderId net s l
  = match transform data net
            {| tenderId := Runtime.tenderId s; analysis := analysis s; loading := true |}
            (l ++ [Fetch endpoint (requestInit tenderId); ResponseJson])%list with
    | (Normal result, _, _) =>
        (Normal tt,
         {| tenderId := Runtime.tenderId s; analysis := Some result; loading := false |},
         l ++ [Fetch endpoint (requestInit tenderId); ResponseJson])%list
    | (Throw e, _, _) =>
        (Normal tt, idle s,
         l ++ [Fetch endpoint (requestInit tenderId); ResponseJson;
               ConsoleError consoleLabel e; Alert alertMessage])%list
    end.
Proof.
  intros Hnet Hok Hjson. unfold analyzeTender. rewrite bind_setLoading.
  unfold try_catch_finally, fetch, response_json.
  unfold bind at 1. rewrite Hnet. unfold bind at 1. rewrite Hok.
  cbn [negb throw ret]. unfold bind at 1. rewrite Hjson.
  rewrite <- !app_assoc. cbn [app]. unfold bind at 1.
  match goal with |- context [transform data net ?s0 ?l0] =>
    destruct (transform_pure data net s0 l0) as [r ->] end.
  destruct r as [result | e]; cbn; rewrite <- ?app_assoc; reflexivity.
Qed.

End Operation.

Section Claims.
Context {H : Host}.

(** C1.  A success response whose body is an object with the fields title,
    price_range.min, price_range.max, confidence, requirements and
    compliance: the operation stores an object whose title, priceRange.min,
    priceRange.max, confidence, requirements and compliance are those very
    values, whatever was stored before; nothing is logged or alerted and the
    tender id is left alone.  (The tender id may even be empty.) *)
Theorem analyzeTender_stores_mapped_response
    (tenderId : string) (net : network) (s : state) (response : Response)
    (props priceProps : list (string * value))
    (t mn mx c rq cm : value) :
  net [] endpoint (requestInit tenderId) = Normal response ->
  ok response = true ->
  json response = Normal (VObj props) ->
  own_property props "title" = Some t ->
  own_property props "price_range" = Some (VObj priceProps) ->
  own_property priceProps "min" = Some mn ->
  own_property priceProps "max" = Some mx ->
  own_property props "confidence" = Some c ->
  own_property props "requirements" = Some rq ->
  own_property props "compliance" = Some cm ->
  run (analyzeTender tenderId) net s
  = (Normal tt,
     {| tenderId := Runtime.tenderId s;
        analysis := Some {| title := t;
                            priceRange := {| min := mn; max := mx |};
                            confidence := c;
                            requirements := rq;
                            compliance := cm |};
        loading := false |},
     [Fetch endpoint (requestInit tenderId); ResponseJson]).
Proof.
  intros Hnet Hok Hjson Ht Hpr Hmn Hmx Hc Hrq Hcm.
  unfold run.
  rewrite (analyzeTender_parsed _ _ _ _ _ _ Hnet Hok Hjson).
  rewrite (transform_ok _ (VObj priceProps)).
  - unfold mapped. simpl. rewrite Ht, Hmn, Hmx, Hc, Hrq, Hcm. reflexivity.
  - simpl. rewrite Hpr. reflexivity.
  - reflexivity.
Qed.

(** C2.  When the request fails (rejected, non-success status, or a body
    that does not parse), whatever was stored before, absent included, is
    still stored afterwards; the error is logged with [console.error] and
    then the alert is shown; the operation itself completes normally. *)
Theorem analyzeTender_failure_keeps_result
    (tenderId : string) (net : network) (s : state) (e : error) :
  failing (net [] endpoint (requestInit tenderId)) e ->
  let r := run (analyzeTender tenderId) net s in
  result_of r = Normal tt
  /\ analysis (state_of r) = analysis s
  /\ Runtime.tenderId (state_of r) = Runtime.tenderId s
  /\ exists reads,
       (reads = [] \/ reads = [ResponseJson])
       /\ log_of r
          = (Fetch endpoint (requestInit tenderId) :: reads
             ++ [ConsoleError "Error analyzing tender:" e;
                 Alert "Failed to analyze tender. Please try again."])%list.
Proof.
  intros Hfail r. subst r. unfold run.
  remember (net [] endpoint (requestInit tenderId)) as outcome eqn:Hnet.
  symmetry in Hnet.
  destruct Hfail as [e | response Hok | response e Hok Hjson].
  - rewrite (analyzeTender_rejected _ _ _ _ _ Hnet).
    repeat split. exists []. split; [ left | ]; reflexivity.
  - rewrite (analyzeTender_not_ok _ _ _ _ _ Hnet Hok).
    repeat split. exists []. split; [ left | ]; reflexivity.
  - rewrite (analyzeTender_unparsed _ _ _ _ _ _ Hnet Hok Hjson).
    repeat split. exists [ResponseJson]. split; [ right | ]; reflexivity.
Qed.

(** C3.  Whatever the network does and whatever the state and the log were,
    the operation completes, and [loading] is false afterwards: the reset
    sits in the [finally] block (lemma [finally_runs_last]), so it runs on
    the success path, on a rejected request, on a non-success status, on an
    unparsable body and on a body whose reads throw. *)
Theorem analyzeTender_resets_loading
    (tenderId : string) (net : network) (s : state) (l : list effect) :
  result_of (analyzeTender tenderId net s l) = Normal tt
  /\ loading (state_of (analyzeTender tenderId net s l)) = false.
Proof.
  split.
  - destruct (net l endpoint (requestInit tenderId)) as [response | e] eqn:Hnet.
    + destruct (ok response) eqn:Hok.
      * destruct (json response) as [data | e] eqn:Hjson.
        -- rewrite (analyzeTender_parsed _ _ _ _ _ _ Hnet Hok Hjson).
           match goal with |- context [transform data net ?s0 ?l0] =>
             destruct (transform_pure data net s0 l0) as [[a | e] ->] end;
             reflexivity.
        -- rewrite (analyzeTender_unparsed _ _ _ _ _ _ Hnet Hok Hjson). reflexivity.
      * rewrite (analyzeTender_not_ok _ _ _ _ _ Hnet Hok). reflexivity.
    + rewrite (analyzeTender_rejected _ _ _ _ _ Hnet). reflexivity.
  - unfold analyzeTender. rewrite bind_setLoading. apply finally_runs_last.
Qed.

(** C5.  A response whose status is not a success is a failure whatever its
    body holds: the body is never read, [Error("Analysis failed")] is thrown
    into the same [catch] block that a rejected request reaches, and the two
    runs end in the same state with the same alert, differing only in the
    error object handed to [console.error]. *)
Theorem analyzeTender_non_success_is_failure
    (tenderId : string) (net : network) (s : state) (response : Response) :
  net [] endpoint (requestInit tenderId) = Normal response ->
  ok response = false ->
  run (analyzeTender tenderId) net s
  = (Normal tt, idle s,
     [Fetch endpoint (requestInit tenderId);
      ConsoleError "Error analyzing tender:" (Error "Analysis failed");
      Alert "Failed to analyze tender. Please try again."])
  /\ forall (net' : network) (e : error),
       net' [] endpoint (requestInit tenderId) = Throw e ->
       run (analyzeTender tenderId) net' s
       = (Normal tt, idle s,
          [Fetch endpoint (requestInit tenderId);
           ConsoleError "Error analyzing tender:" e;
           Alert "Failed to analyze tender. Please try again."]).
Proof.
  intros Hnet Hok. split.
  - unfold run. rewrite (analyzeTender_not_ok _ _ _ _ _ Hnet Hok). reflexivity.
  - intros net' e Hnet'. unfold run.
    rewrite (analyzeTender_rejected _ _ _ _ _ Hnet'). reflexivity.
Qed.

End Claims.

(** * Rendering *)

Section Rendering.
Context {H : Host}.

Lemma resultPanels_pure (a : AnalysisResult) net s l :
  resultPanels a net s l = (panels a, s, l).
Proof.
  unfold resultPanels, panels, bind, lift, ret.
  destruct (toLocaleString (min (priceRange a))); [| reflexivity ].
  destruct (toLocaleString (max (priceRange a))); [| reflexivity ].
  destruct (call_map (requirements a) requirementItem); reflexivity.
Qed.

(** A render reads the state and changes nothing. *)
Lemma TenderDashboard_pure net s l :
  TenderDashboard net s l
  = (match results (analysis s) with
     | Normal r => Normal (page (trigger s) r)
     | Throw e => Throw e
     end, s, l).
Proof.
  unfold TenderDashboard, bind, useState, results, trigger.
  destruct (analysis s) as [a |].
  - rewrite resultPanels_pure. destruct (panels a); reflexivity.
  - reflexivity.
Qed.

Lemma render_inversion net s l tree :
  result_of (TenderDashboard net s l) = Normal tree ->
  exists r, results (analysis s) = Normal r /\ tree = page (trigger s) r.
Proof.
  rewrite TenderDashboard_pure. unfold result_of. simpl.
  destruct (results (analysis s)) as [r | e]; intros E; [| discriminate ].
  exists r. split; [ reflexivity | congruence ].
Qed.

(** ** Searching the tree *)

Lemma items_without (tag : string) (items : list value) (index : nat) :
  String.eqb "li" tag = false ->
  String.eqb "CheckCircle" tag = false ->
  String.eqb "span" tag = false ->
  flat_map (elements_by_tag tag) (map_index requirementItem items index) = [].
Proof.
  intros Hli Hcc Hspan. revert index.
  induction items as [| req items IH]; intros index;
    cbn [flat_map map_index elements_by_tag requirementItem app].
  - reflexivity.
  - rewrite Hli, Hcc, Hspan. cbn [app]. apply IH.
Qed.

Lemma items_li (items : list value) (index : nat) :
  flat_map (elements_by_tag "li") (map_index requirementItem items index)
  = map_index requirementItem items index.
Proof.
  revert index. induction items as [| req items IH]; intros index; simpl.
  - reflexivity.
  - f_equal. apply IH.
Qed.

Lemma panels_inversion (a : AnalysisResult) (r : node) :
  panels a = Normal r ->
  exists minText maxText items,
    toLocaleString (min (priceRange a)) = Normal minText
    /\ toLocaleString (max (priceRange a)) = Normal maxText
    /\ requirements a = VArr items
    /\ r = Element "div" [className "grid grid-cols-1 md:grid-cols-2 gap-6"]
             [pricePanel minText maxText (confidence a);
              compliancePanel (compliance a);
              requirementsPanel (map_index requirementItem items 0)].
Proof.
  unfold panels.
  destruct (toLocaleString (min (priceRange a))) as [minText |]; [| discriminate ].
  destruct (toLocaleString (max (priceRange a))) as [maxText |]; [| discriminate ].
  destruct (requirements a) as [ | | b | n | str | items | props ] eqn:Hreq;
    simpl; try discriminate.
  intros E. exists minText, maxText, items.
  repeat split. congruence.
Qed.

Lemma results_without (tag : string) (a : option AnalysisResult) (r : node) :
  results a = Normal r ->
  String.eqb "div" tag = false -> String.eqb "h2" tag = false ->
  String.eqb "DollarSign" tag = false -> String.eqb "CheckCircle" tag = false ->
  String.eqb "FileText" tag = false -> String.eqb "ul" tag = false ->
  String.eqb "li" tag = false -> String.eqb "span" tag = false ->
  elements_by_tag tag r = [].
Proof.
  intros Hr Hdiv Hh2 Hds Hcc Hft Hul Hli Hspan.
  destruct a as [a |]; simpl in Hr.
  - destruct (panels_inversion a r Hr) as (mn & mx & items & _ & _ & _ & ->).
    cbn [flat_map elements_by_tag pricePanel compliancePanel requirementsPanel app].
    rewrite Hdiv, Hh2, Hds, Hcc, Hft, Hul. cbn [app].
    rewrite items_without by assumption. reflexivity.
  - injection Hr as <-. reflexivity.
Qed.

Lemma not_string_empty (str : string) : not_string str = true <-> str = "".
Proof. destruct str; simpl; split; congruence. Qed.

Lemma page_trigger_disabled (s : state) (a : option AnalysisResult) (r : node) :
  results a = Normal r ->
  trigger_disabled (page (trigger s) r)
  = Some (loading s || not_string (tenderId s)).
Proof.
  intros Hr. unfold trigger_disabled, page, trigger, triggerSection.
  simpl. rewrite (results_without "button" a r Hr) by reflexivity.
  reflexivity.
Qed.

End Rendering.

Section RenderingClaims.
Context {H : Host}.

Lemma map_index_length {A B} (f : A -> nat -> B) (l : list A) (index : nat) :
  length (map_index f l index) = length l.
Proof.
  revert index. induction l as [| x l IH]; intros index; simpl.
  - reflexivity.
  - f_equal. apply IH.
Qed.

Lemma map_index_nth {A B} (f : A -> nat -> B) (l : list A) (index i : nat) (x : A) :
  nth_error l i = Some x ->
  nth_error (map_index f l index) i = Some (f x (index + i)).
Proof.
  revert index i. induction l as [| y l IH]; intros index [| i]; simpl;
    try discriminate.
  - intros [= ->]. rewrite Nat.add_0_r. reflexivity.
  - intros Hx. rewrite (IH (S index) i Hx). do 2 f_equal. lia.
Qed.

(** C4.  The button of the trigger section carries a boolean [disabled]
    attribute that is true exactly when the tender id is the empty string or
    [loading] is true, and false otherwise; and it is the one button of every
    tree a render returns. *)
Theorem trigger_disabled_iff_empty_or_loading
    (net : network) (s : state) (l : list effect) :
  (exists b : bool,
      trigger_disabled (trigger s) = Some b
      /\ (b = true <-> tenderId s = "" \/ loading s = true)
      /\ (b = false <-> tenderId s <> "" /\ loading s = false))
  /\ forall tree,
       result_of (TenderDashboard net s l) = Normal tree ->
       trigger_disabled tree = trigger_disabled (trigger s).
Proof.
  split.
  - exists (loading s || not_string (tenderId s)).
    split; [ reflexivity | ].
    destruct (loading s), (tenderId s); simpl; intuition congruence.
  - intros tree Hrender.
    destruct (render_inversion _ _ _ _ Hrender) as (r & Hr & ->).
    rewrite (page_trigger_disabled s _ r Hr). reflexivity.
Qed.

(** C7.  For a stored result whose requirements are an array: every tree a
    render returns has one [ul], whose items are the [li] elements of the
    tree; there are as many as requirements, and the i-th one, keyed [i],
    holds the fixed check mark and then the i-th requirement as received.
    Such a render does return whenever the two prices print. *)
Theorem requirements_rendered_in_order
    (net : network) (s : state) (l : list effect)
    (a : AnalysisResult) (reqs : list value) :
  analysis s = Some a ->
  requirements a = VArr reqs ->
  (forall tree,
      result_of (TenderDashboard net s l) = Normal tree ->
      elements_by_tag "ul" tree
      = [Element "ul" [("className", AStr "space-y-2")]
           [Items (elements_by_tag "li" tree)]]
      /\ length (elements_by_tag "li" tree) = length reqs
      /\ forall (i : nat) (req : value),
           nth_error reqs i = Some req ->
           nth_error (elements_by_tag "li" tree) i
           = Some (Element "li"
                     [("key", ANum i);
                      ("className", AStr "flex items-start gap-2")]
                     [Element "CheckCircle"
                        [("size", ANum 16);
                         ("className", AStr "text-green-500 mt-1")] [];
                      Element "span" [] [Expr req]]))
  /\ (forall minText maxText,
         toLocaleString (min (priceRange a)) = Normal minText ->
         toLocaleString (max (priceRange a)) = Normal maxText ->
         exists tree, result_of (TenderDashboard net s l) = Normal tree).
Proof.
  intros Ha Hreqs. split.
  - intros tree Hrender.
    destruct (render_inversion _ _ _ _ Hrender) as (r & Hr & ->).
    rewrite Ha in Hr. simpl in Hr.
    destruct (panels_inversion a r Hr) as (mn & mx & items & _ & _ & Hitems & ->).
    assert (items = reqs) as -> by congruence.
    assert (Hli : elements_by_tag "li"
                    (page (trigger s)
                       (Element "div" [className "grid grid-cols-1 md:grid-cols-2 gap-6"]
                          [pricePanel mn mx (confidence a);
                           compliancePanel (compliance a);
                           requirementsPanel (map_index requirementItem reqs 0)]))
                  = map_index requirementItem reqs 0).
    { simpl. rewrite items_li, !app_nil_r. reflexivity. }
    rewrite Hli. split; [| split ].
    + simpl. rewrite items_without by reflexivity. reflexivity.
    + apply map_index_length.
    + intros i req Hreq. rewrite (map_index_nth _ _ _ _ _ Hreq). reflexivity.
  - intros minText maxText Hmin Hmax.
    rewrite TenderDashboard_pure, Ha. unfold result_of, results, panels. simpl.
    rewrite Hmin, Hmax, Hreqs. simpl. eexists. reflexivity.
Qed.

(** C9.  A render changes neither the state nor the log and does not look
    at the network; its completion is the page around the trigger section
    and [results (analysis s)], a function of the stored result alone; a
    second render in a row returns what the first returned; and with nothing
    stored the page draws its heading and the trigger section only. *)
Theorem render_is_pure (net : network) (s : state) (l : list effect) :
  TenderDashboard net s l
  = (match results (analysis s) with
     | Normal r => Normal (page (trigger s) r)
     | Throw e => Throw e
     end, s, l)
  /\ (first <- TenderDashboard ;; second <- TenderDashboard ;; ret (first, second))
       net s l
     = (match result_of (TenderDashboard net s l) with
        | Normal tree => Normal (tree, tree)
        | Throw e => Throw e
        end, s, l)
  /\ (analysis s = None ->
      exists tree inner heading,
        result_of (TenderDashboard net s l) = Normal tree
        /\ container tree = Some inner
        /\ children_of inner = [heading; trigger s; Expr VNull]
        /\ tag_of heading = Some "h1"
        /\ drawn inner = [heading; trigger s]).
Proof.
  split; [ apply TenderDashboard_pure | split ].
  - unfold bind. rewrite !TenderDashboard_pure. unfold result_of. simpl.
    destruct (results (analysis s)) as [r | e] eqn:Hr; [| reflexivity ].
    rewrite ?TenderDashboard_pure, ?Hr. reflexivity.
  - intros Hnone. rewrite TenderDashboard_pure, Hnone.
    do 3 eexists. repeat split.
Qed.

(** C10.  The three cells start as the empty string, null and false; the
    first render returns the page with the button disabled and with null in
    the place of the results, so no panel heading and no list is in it. *)
Theorem initial_render (net : network) (l : list effect) :
  tenderId initial_state = ""
  /\ analysis initial_state = None
  /\ loading initial_state = false
  /\ TenderDashboard net initial_state l
     = (Normal (page (trigger initial_state) (Expr VNull)), initial_state, l)
  /\ trigger_disabled (page (trigger initial_state) (Expr VNull)) = Some true
  /\ elements_by_tag "h2" (page (trigger initial_state) (Expr VNull)) = []
  /\ elements_by_tag "ul" (page (trigger initial_state) (Expr VNull)) = []
  /\ drawn (Element "div" [] [trigger initial_state; Expr VNull])
     = [trigger initial_state].
Proof.
  repeat split.
Qed.

End RenderingClaims.

(** * The request body *)

Section Quoting.
Context {H : Host}.

Lemma string_append_assoc (a b c : string) : (a ++ b) ++ c = a ++ (b ++ c).
Proof. induction a as [| ch a IH]; simpl; [ reflexivity | now rewrite IH ]. Qed.

Lemma readChars_quoteChar (c : ascii) (tail : string) (r : option (string * string)) :
  readChars tail = r ->
  readChars (quoteChar c ++ tail) = prepend c r.
Proof.
  intros <-.
  destruct c as [[] [] [] [] [] [] [] []]; reflexivity.
Qed.

Lemma readChars_quoteChars (s tail : string) :
  readChars (quoteChars s ++ String dquote tail) = Some (s, tail).
Proof.
  induction s as [| c s IH].
  - reflexivity.
  - cbn [quoteChars]. rewrite string_append_assoc.
    rewrite (readChars_quoteChar c _ _ IH). reflexivity.
Qed.

Lemma quoteChars_closed_injective (a b tail : string) :
  quoteChars a ++ String dquote tail = quoteChars b ++ String dquote tail ->
  a = b.
Proof.
  intros E. pose proof (readChars_quoteChars a tail) as Ha.
  rewrite E, readChars_quoteChars in Ha. congruence.
Qed.

Lemma requestInit_body (tenderId : string) :
  body (requestInit tenderId)
  = Some ("{" ++ QuoteJSONString "tender_id" ++ ":"
              ++ String dquote (quoteChars tenderId
                                  ++ String dquote
                                       ("," ++ QuoteJSONString "tender_url" ++ ":null}"))).
Proof.
  unfold requestInit, requestBody, body, JSON_stringify, QuoteJSONString.
  cbn [flat_map snd fst app String.concat quoteChars quoteChar nat_of_ascii].
  simpl. rewrite !string_append_assoc. reflexivity.
Qed.

Lemma quoteChar_above_controls (c : ascii) :
  forallb (fun x => Nat.leb 32 (nat_of_ascii x)) (list_ascii_of_string (quoteChar c)) = true.
Proof. destruct c as [[] [] [] [] [] [] [] []]; vm_compute; reflexivity. Qed.

Lemma list_ascii_of_string_app (a b : string) :
  list_ascii_of_string (a ++ b)
  = (list_ascii_of_string a ++ list_ascii_of_string b)%list.
Proof. induction a as [| c a IH]; simpl; [ reflexivity | now rewrite IH ]. Qed.

Lemma quoteChars_above_controls (s : string) :
  forallb (fun x => Nat.leb 32 (nat_of_ascii x)) (list_ascii_of_string (quoteChars s)) = true.
Proof.
  induction s as [| c s IH].
  - reflexivity.
  - cbn [quoteChars]. rewrite list_ascii_of_string_app, forallb_app.
    rewrite quoteChar_above_controls, IH. reflexivity.
Qed.



(** X7.  The request always has a body, and the body determines the tender
    id: two renders with different tender ids send different bodies. *)
Theorem request_body_determines_tender_id (a b : string) :
  body (requestInit a) <> None
  /\ (body (requestInit a) = body (requestInit b) -> a = b).
Proof.
  split.
  - rewrite requestInit_body. discriminate.
  - rewrite !requestInit_body. intros E.
    injection E as E. simpl in E.
    repeat match type of E with String _ _ = String _ _ => injection E as E end.
    exact (quoteChars_closed_injective _ _ _ E).
Qed.

(** X8.  Whatever the tender id holds (line breaks, tabs, quotes, other
    control characters), the body sent has no character below the space:
    every one of them leaves as an escape. *)
Theorem request_body_has_no_control_character (tenderId : string) :
  exists text,
    body (requestInit tenderId) = Some text
    /\ forallb (fun c => Nat.leb 32 (nat_of_ascii c)) (list_ascii_of_string text) = true.
Proof.
  rewrite requestInit_body. eexists. split; [ reflexivity | ].
  simpl. rewrite list_ascii_of_string_app, forallb_app.
  rewrite quoteChars_above_controls. reflexivity.
Qed.

End Quoting.

Section RequestClaims.
Context {H : Host}.

Lemma fetches_app (l1 l2 : list effect) :
  fetches (l1 ++ l2) = (fetches l1 ++ fetches l2)%list.
Proof. apply flat_map_app. Qed.


(** Every run of the operation completes normally, keeps the tender id,
    and adds to the log one [Fetch] followed by entries that are not. *)
Lemma analyzeTender_log (tenderId : string) net s l :
  exists s' tail,
    analyzeTender tenderId net s l
    = (Normal tt, s', (l ++ Fetch endpoint (requestInit tenderId) :: tail)%list)
    /\ fetches tail = [].
Proof.
  destruct (net l endpoint (requestInit tenderId)) as [response | e] eqn:Hnet.
  - destruct (ok response) eqn:Hok.
    + destruct (json response) as [data | e] eqn:Hjson.
      * rewrite (analyzeTender_parsed _ _ _ _ _ _ Hnet Hok Hjson).
        match goal with |- context [transform data net ?s0 ?l0] =>
          destruct (transform_pure data net s0 l0) as [[a | e] ->] end;
          do 2 eexists; split; reflexivity.
      * rewrite (analyzeTender_unparsed _ _ _ _ _ _ Hnet Hok Hjson).
        do 2 eexists; split; reflexivity.
    + rewrite (analyzeTender_not_ok _ _ _ _ _ Hnet Hok).
      do 2 eexists; split; reflexivity.
  - rewrite (analyzeTender_rejected _ _ _ _ _ Hnet).
    do 2 eexists; split; reflexivity.
Qed.

Lemma analyzeTender_fetches (tenderId : string) net s l :
  exists s',
    fst (analyzeTender tenderId net s l) = (Normal tt, s')
    /\ fetches (log_of (analyzeTender tenderId net s l))
       = (fetches l ++ [(endpoint, requestInit tenderId)])%list.
Proof.
  destruct (analyzeTender_log tenderId net s l) as (s' & tail & -> & Htail).
  exists s'. split; [ reflexivity | ].
  unfold log_of. simpl. rewrite fetches_app. simpl. rewrite Htail. reflexivity.
Qed.



(** C6, as the code has it.  The body of a success response is not
    validated.  When its [price_range] is there and is neither null nor
    undefined, the object is stored with every field as read, nothing is
    alerted, and a later render throws, outside any [try], as soon as
    [priceRange.min] or [priceRange.max] is null or undefined or
    [requirements] is not an array.  When the body is null, or its
    [price_range] is null or absent, the read throws a [TypeError] inside
    the [try] block: it is logged and alerted like any failure and the
    stored result stays. *)
Theorem unvalidated_response
    (tenderId : string) (net : network) (s : state) (response : Response)
    (data : value) :
  net [] endpoint (requestInit tenderId) = Normal response ->
  ok response = true ->
  json response = Normal data ->
  let r := run (analyzeTender tenderId) net s in
  (forall price_range,
      get data "price_range" = Normal price_range ->
      nullish price_range = false ->
      r = (Normal tt,
           {| tenderId := Runtime.tenderId s;
              analysis := Some (mapped data price_range);
              loading := false |},
           [Fetch endpoint (requestInit tenderId); ResponseJson])
      /\ (nullish (min (priceRange (mapped data price_range))) = true
          \/ nullish (max (priceRange (mapped data price_range))) = true
          \/ is_array (requirements (mapped data price_range)) = false ->
          forall net' l',
          exists e, result_of (TenderDashboard net' (state_of r) l') = Throw e))
  /\ (nullish data = true
      \/ (exists price_range,
             get data "price_range" = Normal price_range
             /\ nullish price_range = true) ->
      exists message,
        r = (Normal tt, idle s,
             [Fetch endpoint (requestInit tenderId); ResponseJson;
              ConsoleError "Error analyzing tender:" (TypeError message);
              Alert "Failed to analyze tender. Please try again."])).
Proof.
  intros Hnet Hok Hjson r. subst r. unfold run.
  rewrite (analyzeTender_parsed _ _ _ _ _ _ Hnet Hok Hjson). split.
  - intros price_range Hpr Hnn.
    rewrite (transform_ok _ _ _ _ _ Hpr Hnn). split; [ reflexivity | ].
    intros Hbad net' l'. rewrite TenderDashboard_pure.
    unfold result_of, state_of. simpl. unfold panels.
    set (a := mapped data price_range) in *.
    destruct (min (priceRange a)) eqn:Hmin;
      try (eexists; reflexivity);
      (destruct (toLocaleString (min (priceRange a))) as [mn |] eqn:Hmn;
       rewrite Hmin in Hmn; rewrite Hmn; [| eexists; reflexivity ]);
      (destruct (max (priceRange a)) eqn:Hmax;
       try (eexists; reflexivity);
       (destruct (toLocaleString (max (priceRange a))) as [mx |] eqn:Hmx;
        rewrite Hmax in Hmx; rewrite Hmx; [| eexists; reflexivity ]);
       (destruct (requirements a) eqn:Hreq;
        try (eexists; reflexivity);
        simpl in Hbad; destruct Hbad as [Hb | [Hb | Hb]]; discriminate)).
  - intros [Hdata | (price_range & Hpr & Hnull)].
    + unfold transform, bind, lift.
      rewrite (get_nullish data "title" Hdata). eexists. reflexivity.
    + assert (Hd : nullish data = false).
      { destruct data; simpl in Hpr |- *; congruence. }
      unfold transform, bind, lift.
      destruct (get_total data "title" Hd) as [t ->].
      rewrite Hpr, (get_nullish price_range "min" Hnull). eexists. reflexivity.
Qed.

End RequestClaims.

(** * Further properties of the operation *)

Section Outcomes.
Context {H : Host}.

Lemma transform_cases (data : value) net s l :
  (exists price_range,
      get data "price_range" = Normal price_range
      /\ nullish price_range = false
      /\ transform data net s l = (Normal (mapped data price_range), s, l))
  \/ (exists e, transform data net s l = (Throw e, s, l)).
Proof.
  destruct (nullish data) eqn:Hd.
  - right. unfold transform, bind, lift.
    rewrite (get_nullish data "title" Hd). eexists. reflexivity.
  - destruct (get_total data "price_range" Hd) as [price_range Hpr].
    destruct (nullish price_range) eqn:Hn.
    + right. unfold transform, bind, lift.
      destruct (get_total data "title" Hd) as [t ->].
      rewrite Hpr, (get_nullish price_range "min" Hn). eexists. reflexivity.
    + left. exists price_range. repeat split; try assumption.
      apply transform_ok; assumption.
Qed.

(** Every run, sorted by how it ends. *)
Lemma analyzeTender_outcomes (tenderId : string) net s l :
  (exists response data price_range,
      net l endpoint (requestInit tenderId) = Normal response
      /\ ok response = true
      /\ json response = Normal data
      /\ get data "price_range" = Normal price_range
      /\ nullish price_range = false
      /\ analyzeTender tenderId net s l
         = (Normal tt,
            {| tenderId := Runtime.tenderId s;
               analysis := Some (mapped data price_range);
               loading := false |},
            l ++ [Fetch endpoint (requestInit tenderId); ResponseJson])%list)
  \/ (exists e reads,
         (reads = [] \/ reads = [ResponseJson])
         /\ analyzeTender tenderId net s l
            = (Normal tt, idle s,
               l ++ Fetch endpoint (requestInit tenderId) :: reads
                 ++ [ConsoleError consoleLabel e; Alert alertMessage])%list).
Proof.
  destruct (net l endpoint (requestInit tenderId)) as [response | e] eqn:Hnet.
  - destruct (ok response) eqn:Hok.
    + destruct (json response) as [data | e] eqn:Hjson.
      * rewrite (analyzeTender_parsed _ _ _ _ _ _ Hnet Hok Hjson).
        match goal with |- context [transform data net ?s0 ?l0] =>
          destruct (transform_cases data net s0 l0)
            as [(price_range & Hpr & Hn & ->) | (e & ->)] end.
        -- left. exists response, data, price_range. repeat split; assumption.
        -- right. exists e, [ResponseJson]. split; [ right | ]; reflexivity.
      * right. exists e, [ResponseJson]. split; [ right; reflexivity | ].
        apply (analyzeTender_unparsed _ _ _ _ _ _ Hnet Hok Hjson).
    + right. exists (Error "Analysis failed"), []. split; [ left; reflexivity | ].
      apply (analyzeTender_not_ok _ _ _ _ _ Hnet Hok).
  - right. exists e, []. split; [ left; reflexivity | ].
    apply (analyzeTender_rejected _ _ _ _ _ Hnet).
Qed.

Lemma analyzeTender_leaves_idle (tenderId : string) net s l :
  Runtime.tenderId (state_of (analyzeTender tenderId net s l)) = Runtime.tenderId s
  /\ loading (state_of (analyzeTender tenderId net s l)) = false.
Proof.
  destruct (analyzeTender_outcomes tenderId net s l)
    as [(response & data & pr & _ & _ & _ & _ & _ & ->) | (e & reads & _ & ->)];
    split; reflexivity.
Qed.

(** X1.  Every run ends in one of two ways, whatever the network, the state
    and the log were.  Either the response was a success, its body parsed
    and its [price_range] was neither absent nor null: then the mapped
    object is stored and the log gains the request and the read of the body
    only, with no [console.error] and no alert.  Or the stored result is
    left as it was and the log ends with one [console.error] followed by one
    alert.  In both, the tender id is kept and [loading] is false. *)
Theorem analyzeTender_stores_or_alerts
    (tenderId : string) (net : network) (s : state) (l : list effect) :
  (exists response data price_range,
      net l endpoint (requestInit tenderId) = Normal response
      /\ ok response = true
      /\ json response = Normal data
      /\ get data "price_range" = Normal price_range
      /\ nullish price_range = false
      /\ analyzeTender tenderId net s l
         = (Normal tt,
            {| tenderId := Runtime.tenderId s;
               analysis := Some (mapped data price_range);
               loading := false |},
            l ++ [Fetch endpoint (requestInit tenderId); ResponseJson])%list)
  \/ (exists e reads,
         (reads = [] \/ reads = [ResponseJson])
         /\ analyzeTender tenderId net s l
            = (Normal tt,
               {| tenderId := Runtime.tenderId s;
                  analysis := analysis s;
                  loading := false |},
               l ++ Fetch endpoint (requestInit tenderId) :: reads
                 ++ [ConsoleError "Error analyzing tender:" e;
                     Alert "Failed to analyze tender. Please try again."])%list).
Proof. apply analyzeTender_outcomes. Qed.

End Outcomes.

(** * Further properties of the view *)

Section View.
Context {H : Host}.

Lemma page_input_value (s : state) (a : option AnalysisResult) (r : node) :
  results a = Normal r ->
  input_value (page (trigger s) r) = Some (tenderId s).
Proof.
  intros Hr. unfold input_value, the_element, page, trigger, triggerSection.
  simpl. rewrite (results_without "input" a r Hr) by reflexivity.
  reflexivity.
Qed.

Lemma page_input_onChange (s : state) (a : option AnalysisResult) (r : node) :
  results a = Normal r ->
  input_onChange (page (trigger s) r) = Some (fun value => setTenderId value).
Proof.
  intros Hr. unfold input_onChange, the_element, page, trigger, triggerSection.
  simpl. rewrite (results_without "input" a r Hr) by reflexivity.
  reflexivity.
Qed.

Lemma page_button_onClick (s : state) (a : option AnalysisResult) (r : node) :
  results a = Normal r ->
  button_onClick (page (trigger s) r) = Some (analyzeTender (tenderId s)).
Proof.
  intros Hr. unfold button_onClick, the_element, page, trigger, triggerSection.
  simpl. rewrite (results_without "button" a r Hr) by reflexivity.
  reflexivity.
Qed.

Lemma page_button_label (s : state) (a : option AnalysisResult) (r : node) :
  results a = Normal r ->
  button_label (page (trigger s) r)
  = Some (Expr (VStr (if loading s then "Analyzing..." else "Analyze"))).
Proof.
  intros Hr. unfold button_label, the_element, page, trigger, triggerSection.
  simpl. rewrite (results_without "button" a r Hr) by reflexivity.
  reflexivity.
Qed.

(** X2.  The text field is controlled by [tenderId].  In every tree a
    render returns, the field shows the tender id of the state; a change
    event through that tree's handler stores the new text as the tender id
    and touches neither the stored result, nor [loading], nor the log; and
    the next render returns a tree whose field shows the new text. *)
Theorem input_is_controlled
    (net : network) (s : state) (l : list effect) (tree : node) :
  result_of (TenderDashboard net s l) = Normal tree ->
  input_value tree = Some (tenderId s)
  /\ (forall text net' s' l',
         type_text tree text net' s' l'
         = (Normal tt,
            {| tenderId := text; analysis := analysis s'; loading := loading s' |},
            l'))
  /\ (forall text,
         exists tree',
           result_of (TenderDashboard net (state_of (type_text tree text net s l)) l)
           = Normal tree'
           /\ input_value tree' = Some text).
Proof.
  intros Hrender.
  destruct (render_inversion _ _ _ _ Hrender) as (r & Hr & ->).
  assert (Htype : forall text net' s' l',
             type_text (page (trigger s) r) text net' s' l'
             = (Normal tt,
                {| tenderId := text; analysis := analysis s'; loading := loading s' |},
                l')).
  { intros. unfold type_text. rewrite (page_input_onChange s _ r Hr). reflexivity. }
  split; [ apply (page_input_value s _ r Hr) | split; [ exact Htype | ] ].
  intros text. rewrite Htype. unfold state_of. simpl.
  rewrite TenderDashboard_pure. unfold result_of. simpl. rewrite Hr.
  eexists. split; [ reflexivity | ].
  match goal with |- input_value (page (trigger ?s1) r) = _ =>
    apply (page_input_value s1 (analysis s) r Hr) end.
Qed.

(** X3.  From a returned tree, with no request in flight: typing a
    non-empty text, rendering again and clicking the button sends one
    request, for the text just typed.  Typing the empty text, or acting
    while [loading] is true, leaves the button disabled, and the click
    does nothing at all. *)
Theorem typed_text_is_what_is_sent
    (net : network) (s : state) (l : list effect) (tree : node) (text : string) :
  result_of (TenderDashboard net s l) = Normal tree ->
  let session :=
    type_text tree text ;; rendered <- TenderDashboard ;; click rendered in
  (loading s = false -> text <> "" ->
   fetches (log_of (session net s l))
   = (fetches l ++ [(endpoint, requestInit text)])%list)
  /\ (loading s = true \/ text = "" ->
      session net s l
      = (Normal tt,
         {| tenderId := text; analysis := analysis s; loading := loading s |},
         l)).
Proof.
  intros Hrender session.
  destruct (render_inversion _ _ _ _ Hrender) as (r & Hr & ->).
  set (typed := {| tenderId := text; analysis := analysis s; loading := loading s |}).
  assert (Hsession : session net s l = click (page (trigger typed) r) net typed l).
  { unfold session, bind, type_text.
    rewrite (page_input_onChange s _ r Hr). cbn [setTenderId]. fold typed.
    rewrite TenderDashboard_pure.
    replace (analysis typed) with (analysis s) by reflexivity.
    rewrite Hr. reflexivity. }
  assert (Hclick : click (page (trigger typed) r)
                   = if loading s || not_string text then ret tt
                     else analyzeTender text).
  { unfold click.
    rewrite (page_button_onClick typed (analysis s) r Hr).
    rewrite (page_trigger_disabled typed (analysis s) r Hr). simpl.
    destruct (loading s || not_string text); reflexivity. }
  rewrite Hsession, Hclick. split.
  - intros Hidle Htext. rewrite Hidle.
    destruct text as [| c text]; [ congruence | ]. simpl.
    destruct (analyzeTender_fetches (String c text) net typed l) as (s' & _ & Hlog).
    exact Hlog.
  - intros [Hbusy | ->].
    + rewrite Hbusy. reflexivity.
    + rewrite orb_true_r. reflexivity.
Qed.

(** X4.  In every tree a render returns while [loading] is true, the
    button is disabled and reads Analyzing..., whatever the tender id.  In
    every tree a render returns once a run of the operation has ended, the
    button reads Analyze again and is disabled only if the tender id is
    empty.  And when the run left the stored result as it was, as every run
    that ends in the alert does, a page that rendered before the run renders
    after it: the user can try again. *)
Theorem button_follows_the_operation
    (tenderId : string) (net : network) (s : state) (l : list effect) :
  (loading s = true ->
   forall net' l' tree,
     result_of (TenderDashboard net' s l') = Normal tree ->
     trigger_disabled tree = Some true
     /\ button_label tree = Some (Expr (VStr "Analyzing...")))
  /\ (let after := state_of (analyzeTender tenderId net s l) in
      (forall net' l' tree,
          result_of (TenderDashboard net' after l') = Normal tree ->
          trigger_disabled tree = Some (not_string (Runtime.tenderId s))
          /\ button_label tree = Some (Expr (VStr "Analyze")))
      /\ (analysis after = analysis s ->
          (exists before, result_of (TenderDashboard net s l) = Normal before) ->
          forall net' l',
          exists tree, result_of (TenderDashboard net' after l') = Normal tree)).
Proof.
  split; [| split ].
  - intros Hbusy net' l' tree Hrender.
    destruct (render_inversion _ _ _ _ Hrender) as (r & Hr & ->).
    rewrite (page_trigger_disabled s _ r Hr), (page_button_label s _ r Hr), Hbusy.
    split; reflexivity.
  - intros net' l' tree Hrender.
    destruct (analyzeTender_leaves_idle tenderId net s l) as [Hid Hidle].
    destruct (render_inversion _ _ _ _ Hrender) as (r & Hr & ->).
    rewrite (page_trigger_disabled _ _ r Hr), (page_button_label _ _ r Hr).
    rewrite Hid, Hidle. split; reflexivity.
  - intros Hkept [before Hbefore] net' l'.
    destruct (render_inversion _ _ _ _ Hbefore) as (r & Hr & _).
    rewrite TenderDashboard_pure, Hkept, Hr. eexists. reflexivity.
Qed.

(** ** When a render returns *)

Lemma value_nested_ind (P : value -> Prop) :
  P VUndefined -> P VNull ->
  (forall b, P (VBool b)) -> (forall n, P (VNum n)) -> (forall s, P (VStr s)) ->
  (forall items, Forall P items -> P (VArr items)) ->
  (forall props, P (VObj props)) ->
  forall v, P v.
Proof.
  intros Hu Hn Hb Hnum Hs Harr Hobj.
  fix IH 1. intros [ | | b | n | s | items | props ].
  - exact Hu.
  - exact Hn.
  - apply Hb.
  - apply Hnum.
  - apply Hs.
  - apply Harr. induction items as [| x items IHitems]; constructor.
    + apply IH.
    + exact IHitems.
  - apply Hobj.
Qed.

Lemma toLocaleString_array (items : list value) :
  toLocaleString (VArr items) = joinLocale items true.
Proof. reflexivity. Qed.

Lemma joinLocale_printable (items : list value) (first : bool) :
  Forall (fun v => prints v <-> printable v = true) items ->
  (exists str, joinLocale items first = Normal str)
  <-> forallb (fun x => nullish x || printable x) items = true.
Proof.
  intros Hall. revert first.
  induction Hall as [| x items Hx Hall IH]; intros first.
  - simpl. split; eauto.
  - cbn [forallb joinLocale]. rewrite andb_true_iff, orb_true_iff, <- (IH false).
    destruct (nullish x) eqn:Hnull.
    + destruct (joinLocale items false) as [t |]; split.
      * intros _. split; eauto.
      * eauto.
      * intros [str E]. discriminate.
      * intros [_ [str E]]. discriminate.
    + rewrite <- Hx. unfold prints.
      destruct (toLocaleString x) as [sx |].
      * destruct (joinLocale items false) as [t |]; split.
        -- intros _. split; eauto.
        -- eauto.
        -- intros [str E]. discriminate.
        -- intros [_ [str E]]. discriminate.
      * split.
        -- intros [str E]. discriminate.
        -- intros [[Hf | [str E]] _]; discriminate.
Qed.

Lemma toLocaleString_printable (v : value) :
  prints v <-> printable v = true.
Proof.
  induction v as [ | | b | n | s | items IH | props ] using value_nested_ind;
    unfold prints.
  - simpl. split; [ intros [str E] | intros E ]; discriminate.
  - simpl. split; [ intros [str E] | intros E ]; discriminate.
  - destruct b; simpl; split; eauto.
  - simpl; split; eauto.
  - simpl; split; eauto.
  - rewrite toLocaleString_array. cbn [printable].
    apply joinLocale_printable. exact IH.
  - simpl. destruct (own_property props "toLocaleString");
      [| destruct (own_property props "toString") ];
      split; eauto; try discriminate; intros [str E]; discriminate.
Qed.

(** X5.  A render returns a tree exactly when nothing is stored, or the
    stored [priceRange.min] and [priceRange.max] both have a working
    [toLocaleString] and [requirements] is an array; in every other state
    the component function throws.  Title, confidence and compliance never
    decide it. *)
Theorem render_returns_iff (net : network) (s : state) (l : list effect) :
  (exists tree, result_of (TenderDashboard net s l) = Normal tree)
  <-> match analysis s with
      | None => True
      | Some a =>
          printable (min (priceRange a)) = true
          /\ printable (max (priceRange a)) = true
          /\ is_array (requirements a) = true
      end.
Proof.
  rewrite TenderDashboard_pure. unfold result_of. simpl.
  destruct (analysis s) as [a |]; simpl.
  - rewrite <- !toLocaleString_printable. unfold prints, panels.
    destruct (toLocaleString (min (priceRange a))) as [mn |].
    + destruct (toLocaleString (max (priceRange a))) as [mx |].
      * destruct (requirements a); simpl; split;
          try (intros [tree E]; discriminate);
          try (intros (_ & _ & E); discriminate);
          eauto.
      * split; [ intros [tree E] | intros (_ & [str E] & _) ]; discriminate.
    + split; [ intros [tree E] | intros ([str E] & _) ]; discriminate.
  - split; eauto.
Qed.

(** ** What a rendered result shows *)

Lemma items_leaves (reqs : list value) (index : nat) :
  flat_map leaves (map_index requirementItem reqs index) = map Expr reqs.
Proof.
  revert index. induction reqs as [| req reqs IH]; intros index; simpl.
  - reflexivity.
  - f_equal. apply IH.
Qed.

(** X6.  For a stored result whose requirements are an array and whose two
    prices print, the render returns, and the texts and values of its tree
    are, in reading order: the heading, the button label, the price line
    (euro sign, lower price as printed, dash and euro sign, upper price as
    printed), the confidence with a percent sign, the compliance with a
    percent sign, and the requirements in the order stored.  The stored
    title is not among them. *)
Theorem rendered_content
    (net : network) (s : state) (l : list effect)
    (a : AnalysisResult) (reqs : list value) (minText maxText : string) :
  analysis s = Some a ->
  requirements a = VArr reqs ->
  toLocaleString (min (priceRange a)) = Normal minText ->
  toLocaleString (max (priceRange a)) = Normal maxText ->
  exists tree,
    result_of (TenderDashboard net s l) = Normal tree
    /\ leaves tree
       = ([Text "Toptimize";
           Expr (VStr (if loading s then "Analyzing..." else "Analyze"));
           Text "Optimal Bid Range";
           Text "€"; Expr (VStr minText); Text " - €"; Expr (VStr maxText);
           Text "Confidence: "; Expr (confidence a); Text "%";
           Text "Compliance Score";
           Expr (compliance a); Text "%";
           Text "Based on requirements analysis";
           Text "Key Requirements"]
          ++ map Expr reqs)%list.
Proof.
  intros Ha Hreqs Hmin Hmax.
  rewrite TenderDashboard_pure, Ha. unfold result_of, results, panels. simpl.
  rewrite Hmin, Hmax, Hreqs. simpl. eexists. split; [ reflexivity | ].
  simpl. rewrite items_leaves, !app_nil_r. reflexivity.
Qed.

End View.

(** ** The claims on concrete runs *)

#[local] Existing Instance IntegerHost.host.

Lemma analyzeTender_stores_mapped_response_witness :
  @run IntegerHost.host _ (analyzeTender "T-1001")
    (IntegerHost.succeed IntegerHost.roadMaintenance) (IntegerHost.typed "T-1001")
  = (Normal tt,
     {| tenderId := "T-1001";
        analysis := Some {| title := VStr "Road Maintenance";
                            priceRange := {| min := IntegerHost.num 50000;
                                             max := IntegerHost.num 75000 |};
                            confidence := IntegerHost.num 82;
                            requirements := VArr [VStr "ISO 9001"];
                            compliance := IntegerHost.num 91 |};
        loading := false |},
     [Fetch endpoint (requestInit "T-1001"); ResponseJson]).
Proof.
  eapply (@analyzeTender_stores_mapped_response IntegerHost.host "T-1001"
            (IntegerHost.succeed IntegerHost.roadMaintenance)
            (IntegerHost.typed "T-1001"));
    reflexivity.
Defined.

Lemma analyzeTender_failure_keeps_result_witness :
  let r := @run IntegerHost.host _ (analyzeTender "T-1001")
             IntegerHost.garbled (IntegerHost.typed "T-1001") in
  result_of r = Normal tt
  /\ analysis (state_of r) = None
  /\ tenderId (state_of r) = "T-1001"
  /\ exists reads,
       (reads = [] \/ reads = [ResponseJson])
       /\ log_of r
          = (Fetch endpoint (requestInit "T-1001") :: reads
             ++ [ConsoleError "Error analyzing tender:"
                   (SyntaxError "Unexpected end of JSON input");
                 Alert "Failed to analyze tender. Please try again."])%list.
Proof.
  apply (@analyzeTender_failure_keeps_result IntegerHost.host "T-1001"
           IntegerHost.garbled (IntegerHost.typed "T-1001")).
  apply parse_failure; reflexivity.
Defined.

Lemma analyzeTender_non_success_is_failure_witness :
  @run IntegerHost.host _ (analyzeTender "T-1001")
    (IntegerHost.status500 IntegerHost.roadMaintenance) (IntegerHost.typed "T-1001")
  = (Normal tt, IntegerHost.typed "T-1001",
     [Fetch endpoint (requestInit "T-1001");
      ConsoleError "Error analyzing tender:" (Error "Analysis failed");
      Alert "Failed to analyze tender. Please try again."]).
Proof.
  refine (proj1 (@analyzeTender_non_success_is_failure IntegerHost.host "T-1001"
                   (IntegerHost.status500 IntegerHost.roadMaintenance)
                   (IntegerHost.typed "T-1001")
                   {| ok := false; json := Normal IntegerHost.roadMaintenance |}
                   _ _));
    reflexivity.
Defined.

(** The scenario of the spec: prices grouped by thousands, 82 and 91 as
    percentages, one requirement. *)
Example scenario_panels :
  result_of (run TenderDashboard IntegerHost.offline analysed)
  = Normal
      (page (trigger analysed)
         (Element "div" [className "grid grid-cols-1 md:grid-cols-2 gap-6"]
            [pricePanel "50,000" "75,000" (IntegerHost.num 82);
             compliancePanel (IntegerHost.num 91);
             requirementsPanel [requirementItem (VStr "ISO 9001") 0]])).
Proof. reflexivity. Qed.

Example scenario_request_body :
  body (requestInit "T-1001")
  = Some ("{" ++ QuoteJSONString "tender_id" ++ ":" ++ QuoteJSONString "T-1001"
              ++ "," ++ QuoteJSONString "tender_url" ++ ":null}").
Proof. reflexivity. Qed.

Lemma trigger_disabled_iff_empty_or_loading_witness :
  trigger_disabled (page (trigger analysed)
                      (Element "div" [className "grid grid-cols-1 md:grid-cols-2 gap-6"]
                         [pricePanel "50,000" "75,000" (IntegerHost.num 82);
                          compliancePanel (IntegerHost.num 91);
                          requirementsPanel [requirementItem (VStr "ISO 9001") 0]]))
  = trigger_disabled (trigger analysed).
Proof.
  apply (proj2 (@trigger_disabled_iff_empty_or_loading IntegerHost.host
                  IntegerHost.offline analysed [])).
  reflexivity.
Defined.

Lemma requirements_rendered_in_order_witness :
  exists tree,
    result_of (TenderDashboard IntegerHost.offline analysedTwo []) = Normal tree
    /\ length (elements_by_tag "li" tree) = 2
    /\ nth_error (elements_by_tag "li" tree) 0
       = Some (Element "li"
                 [("key", ANum 0); ("className", AStr "flex items-start gap-2")]
                 [Element "CheckCircle"
                    [("size", ANum 16); ("className", AStr "text-green-500 mt-1")] [];
                  Element "span" [] [Expr (VStr "ISO 9001 certification")]])
    /\ nth_error (elements_by_tag "li" tree) 1
       = Some (Element "li"
                 [("key", ANum 1); ("className", AStr "flex items-start gap-2")]
                 [Element "CheckCircle"
                    [("size", ANum 16); ("className", AStr "text-green-500 mt-1")] [];
                  Element "span" [] [Expr (VStr "Min. 3 years experience")]]).
Proof.
  destruct (@requirements_rendered_in_order IntegerHost.host
              IntegerHost.offline analysedTwo []
              {| title := VStr "Road Maintenance";
                 priceRange := {| min := IntegerHost.num 50000;
                                  max := IntegerHost.num 75000 |};
                 confidence := IntegerHost.num 82;
                 requirements := VArr [VStr "ISO 9001 certification";
                                       VStr "Min. 3 years experience"];
                 compliance := IntegerHost.num 91 |}
              [VStr "ISO 9001 certification"; VStr "Min. 3 years experience"]
              eq_refl eq_refl) as [Horder Hreturns].
  destruct (Hreturns "50,000" "75,000" eq_refl eq_refl) as [tree Htree].
  destruct (Horder tree Htree) as (_ & Hlength & Hnth).
  exists tree. split; [ exact Htree | ].
  split; [ exact Hlength | ].
  split; [ exact (Hnth 0 _ eq_refl) | exact (Hnth 1 _ eq_refl) ].
Defined.


Lemma render_is_pure_witness :
  exists tree inner heading,
    result_of (TenderDashboard IntegerHost.offline (IntegerHost.typed "T-1001") [])
    = Normal tree
    /\ container tree = Some inner
    /\ children_of inner = [heading; trigger (IntegerHost.typed "T-1001"); Expr VNull]
    /\ tag_of heading = Some "h1"
    /\ drawn inner = [heading; trigger (IntegerHost.typed "T-1001")].
Proof.
  apply (proj2 (proj2 (@render_is_pure IntegerHost.host IntegerHost.offline
                         (IntegerHost.typed "T-1001") []))).
  reflexivity.
Defined.

Lemma unvalidated_response_witness :
  exists e,
    result_of
      (TenderDashboard IntegerHost.offline
         (state_of (run (analyzeTender "T-1001")
                      (IntegerHost.succeed IntegerHost.missingRequirements)
                      (IntegerHost.typed "T-1001"))) [])
    = Throw e.
Proof.
  refine (proj2 (proj1 (@unvalidated_response IntegerHost.host "T-1001"
                          (IntegerHost.succeed IntegerHost.missingRequirements)
                          (IntegerHost.typed "T-1001")
                          {| ok := true; json := Normal IntegerHost.missingRequirements |}
                          IntegerHost.missingRequirements eq_refl eq_refl eq_refl)
                   (VObj [("min", IntegerHost.num 50000); ("max", IntegerHost.num 75000)])
                   eq_refl eq_refl) _ IntegerHost.offline []).
  right. right. reflexivity.
Defined.

(** C6 as the spec words it fails.  A body without [title] is stored and
    the next render returns its tree; so does a body whose [price_range.min]
    is a string; and a body without [price_range] never reaches the render:
    the read throws inside the [try] block and ends in the alert. *)
Lemma malformed_body_counterexample :
  get IntegerHost.missingTitle "title" = Normal VUndefined
  /\ (let r := run (analyzeTender "T-1001")
                 (IntegerHost.succeed IntegerHost.missingTitle)
                 (IntegerHost.typed "T-1001") in
      log_of r = [Fetch endpoint (requestInit "T-1001"); ResponseJson]
      /\ result_of (run TenderDashboard IntegerHost.offline (state_of r))
         = Normal
             (page (trigger (state_of r))
                (Element "div" [className "grid grid-cols-1 md:grid-cols-2 gap-6"]
                   [pricePanel "50,000" "75,000" (IntegerHost.num 82);
                    compliancePanel (IntegerHost.num 91);
                    requirementsPanel [requirementItem (VStr "ISO 9001") 0]])))
  /\ (let r := run (analyzeTender "T-1001")
                 (IntegerHost.succeed IntegerHost.mistypedMin)
                 (IntegerHost.typed "T-1001") in
      log_of r = [Fetch endpoint (requestInit "T-1001"); ResponseJson]
      /\ result_of (run TenderDashboard IntegerHost.offline (state_of r))
         = Normal
             (page (trigger (state_of r))
                (Element "div" [className "grid grid-cols-1 md:grid-cols-2 gap-6"]
                   [pricePanel "50000" "75,000" (IntegerHost.num 82);
                    compliancePanel (IntegerHost.num 91);
                    requirementsPanel [requirementItem (VStr "ISO 9001") 0]])))
  /\ (let r := run (analyzeTender "T-1001")
                 (IntegerHost.succeed IntegerHost.missingPriceRange)
                 (IntegerHost.typed "T-1001") in
      r = (Normal tt, IntegerHost.typed "T-1001",
           [Fetch endpoint (requestInit "T-1001"); ResponseJson;
            ConsoleError "Error analyzing tender:"
              (TypeError "Cannot read properties of undefined (reading 'min')");
            Alert "Failed to analyze tender. Please try again."])
      /\ result_of (run TenderDashboard IntegerHost.offline (state_of r))
         = Normal (page (trigger (state_of r)) (Expr VNull))).
Proof.
  repeat split.
Qed.

(** ** The further properties on concrete runs *)

Lemma input_is_controlled_witness :
  input_value (page (trigger (IntegerHost.typed "T-1001")) (Expr VNull))
  = Some "T-1001".
Proof.
  apply (proj1 (@input_is_controlled IntegerHost.host IntegerHost.offline
                  (IntegerHost.typed "T-1001") []
                  (page (trigger (IntegerHost.typed "T-1001")) (Expr VNull))
                  eq_refl)).
Defined.

Lemma typed_text_is_what_is_sent_witness :
  fetches
    (log_of
       ((type_text (page (trigger (IntegerHost.typed "")) (Expr VNull)) "T-1001" ;;
         rendered <- TenderDashboard ;;
         click rendered)
          IntegerHost.offline (IntegerHost.typed "") []))
  = [(endpoint, requestInit "T-1001")].
Proof.
  refine (proj1 (@typed_text_is_what_is_sent IntegerHost.host IntegerHost.offline
                   (IntegerHost.typed "") []
                   (page (trigger (IntegerHost.typed "")) (Expr VNull))
                   "T-1001" eq_refl)
            eq_refl _).
  discriminate.
Defined.

Lemma button_follows_the_operation_witness :
  exists tree,
    result_of
      (TenderDashboard IntegerHost.offline
         (state_of (analyzeTender "T-1001" IntegerHost.offline
                      (IntegerHost.typed "T-1001") [])) [])
    = Normal tree
    /\ trigger_disabled tree = Some false
    /\ button_label tree = Some (Expr (VStr "Analyze")).
Proof.
  destruct (@button_follows_the_operation IntegerHost.host "T-1001"
              IntegerHost.offline (IntegerHost.typed "T-1001") [])
    as [_ [Hbutton Hreturns]].
  destruct (Hreturns eq_refl (ex_intro _ _ eq_refl) IntegerHost.offline [])
    as [tree Htree].
  exists tree. split; [ exact Htree | ].
  exact (Hbutton IntegerHost.offline [] tree Htree).
Defined.

Lemma render_returns_iff_witness :
  exists tree, result_of (TenderDashboard IntegerHost.offline analysed []) = Normal tree.
Proof.
  apply (proj2 (@render_returns_iff IntegerHost.host IntegerHost.offline analysed [])).
  repeat split.
Defined.

Lemma rendered_content_witness :
  exists tree,
    result_of (TenderDashboard IntegerHost.offline analysed []) = Normal tree
    /\ leaves tree
       = [Text "Toptimize"; Expr (VStr "Analyze");
          Text "Optimal Bid Range";
          Text "€"; Expr (VStr "50,000"); Text " - €"; Expr (VStr "75,000");
          Text "Confidence: "; Expr (IntegerHost.num 82); Text "%";
          Text "Compliance Score";
          Expr (IntegerHost.num 91); Text "%";
          Text "Based on requirements analysis";
          Text "Key Requirements";
          Expr (VStr "ISO 9001")].
Proof.
  apply (@rendered_content IntegerHost.host IntegerHost.offline analysed []
           {| title := VStr "Road Maintenance";
              priceRange := {| min := IntegerHost.num 50000;
                               max := IntegerHost.num 75000 |};
              confidence := IntegerHost.num 82;
              requirements := VArr [VStr "ISO 9001"];
              compliance := IntegerHost.num 91 |}
           [VStr "ISO 9001"] "50,000" "75,000");
    reflexivity.
Defined.

Lemma request_body_determines_tender_id_witness : "T-1001" = "T-1001".
Proof.
  apply (proj2 (@request_body_determines_tender_id IntegerHost.host "T-1001" "T-1001")).
  reflexivity.
Defined.

(** A tender id with a tab and a quote in it leaves escaped. *)
Example escaped_tender_id :
  body (requestInit (String "009" (String dquote "T-1")))
  = Some ("{" ++ QuoteJSONString "tender_id" ++ ":"
              ++ String dquote (String backslash (String "t"
                   (String backslash (String dquote ("T-1" ++ String dquote
                      ("," ++ QuoteJSONString "tender_url" ++ ":null}"))))))).
Proof. reflexivity. Qed.
